(** * Heart-rate-variability metrics: a shallow embedding of [src/hrv.py]

    The development follows the two functions of the script,
    [calculate_HRV_metrics] and [process_HRV_files], statement by statement.

    Modelling choices.
    - A pandas [Series] is a list of Python values, a [DataFrame] is an index
      together with a finite map from column names to series.
    - A float is an exact rational in lowest terms ([Qc]); binary64
      rounding error and infinities are not modelled.  [np.round] is
      round-half-to-even on the scaled value, as in numpy.
    - The square root has no rational value in general; since the script only
      ever uses [np.round (np.sqrt v, 1)], the two calls are modelled together
      by [np_round_sqrt], the exact nearest multiple of [10^-d] to the real
      square root (ties to even).
    - Exceptions are explicit: the body of a [try] block lives in the monad
      [res], and the [except Exception] handler maps every raised exception
      to the fall-through result of the function, Python's [None].
    - The file system below the dataset directory is a finite map from file
      names to the frames [pd.read_csv] returns for them.  Console output is
      not modelled. *)

From Stdlib Require Import QArith Qround Qabs Qcanon Qcabs Lia Lqa.
From stdpp Require Import gmap strings list fin_maps.

(** * Part I: the model *)

(** ** Python values and exceptions *)

Inductive pyval :=
  | PyNone
  | PyStr (s : string)
  | PyInt (z : Z)
  | PyFloat (q : Qc)
  | PyNaN.

Inductive exn := KeyError | TypeError | ValueError | ZeroDivisionError.

Inductive res (A : Type) :=
  | Ok (a : A)
  | Raise (e : exn).
Arguments Ok {A} a.
Arguments Raise {A} e.

Global Instance res_ret : MRet res := λ A a, Ok a.
Global Instance res_bind : MBind res := λ A B f m,
  match m with
  | Ok a => f a
  | Raise e => Raise e
  end.

(** ** Rounding *)

(** [np.rint]: round to the nearest integer, ties to the even one. *)
Definition rint (x : Q) : Z :=
  let f := Qfloor x in
  match (x - inject_Z f ?= 1 # 2)%Q with
  | Lt => f
  | Eq => if Z.even f then f else (f + 1)%Z
  | Gt => (f + 1)%Z
  end.

Definition pow10 (d : nat) : Qc := Qc_of_Z (10 ^ Z.of_nat d).

(** [np.round (x, decimals=d)] on a finite float: scale, [rint], unscale. *)
Definition np_round_Q (x : Qc) (d : nat) : Qc :=
  (Qc_of_Z (rint (x * pow10 d)%Qc) / pow10 d)%Qc.

(** The integer nearest to the real square root of [y] (ties to even),
    for [0 <= y]. *)
Definition rint_sqrt (y : Q) : Z :=
  let k := Z.sqrt (Qfloor y) in
  match (y ?= inject_Z (k * k + k) + (1 # 4))%Q with
  | Lt => k
  | Eq => if Z.even k then k else (k + 1)%Z
  | Gt => (k + 1)%Z
  end.

(** [np.round (v, decimals=d)]: an integer is left as it is, NaN stays
    NaN. *)
Definition np_round (v : pyval) (d : nat) : res pyval :=
  match v with
  | PyFloat q => Ok (PyFloat (np_round_Q q d))
  | PyInt z => Ok (PyInt z)
  | PyNaN => Ok PyNaN
  | _ => Raise TypeError
  end.

(** [np.round (np.sqrt (q), decimals=d)] on a finite float; [np.sqrt] of
    a negative number is NaN. *)
Definition round_sqrt (q : Qc) (d : nat) : pyval :=
  if Qle_bool 0 q
  then PyFloat (Qc_of_Z (rint_sqrt (q * pow10 d * pow10 d)%Qc) / pow10 d)%Qc
  else PyNaN.

Definition np_round_sqrt (v : pyval) (d : nat) : res pyval :=
  match v with
  | PyFloat q => Ok (round_sqrt q d)
  | PyNaN => Ok PyNaN
  | _ => Raise TypeError
  end.

(** [int (v)]: truncation towards zero; NaN cannot be converted. *)
Definition py_int (v : pyval) : res Z :=
  match v with
  | PyFloat q => Ok (if Qle_bool 0 q then Qfloor q else Qceiling q)
  | PyInt z => Ok z
  | PyNaN => Raise ValueError
  | _ => Raise TypeError
  end.

(** [a / b] on Python integers: true division. *)
Definition py_truediv (a b : Z) : res Qc :=
  if (b =? 0)%Z then Raise ZeroDivisionError
  else Ok (Qc_of_Z a / Qc_of_Z b)%Qc.

(** [a / b] with a numpy integer on the left: no exception, a zero
    divisor gives a non-finite value (NaN for the only case that can reach
    it, [0 / 0]). *)
Definition np_truediv (a b : Z) : pyval :=
  if (b =? 0)%Z then PyNaN else PyFloat (Qc_of_Z a / Qc_of_Z b)%Qc.

(** ** pandas series *)

Abbreviation Series := (list pyval).

(** [s.shift (periods)] with fill value NaN. *)
Definition shift (periods : Z) (s : Series) : Series :=
  let k := Z.abs_nat periods `min` length s in
  if (periods <? 0)%Z then drop k s ++ replicate k PyNaN
  else replicate k PyNaN ++ take (length s - k) s.

(** Element-wise arithmetic.  A missing operand gives a missing result;
    float and string operands do not mix. *)
Definition py_sub (a b : pyval) : res pyval :=
  match a, b with
  | PyNaN, _ | _, PyNaN => Ok PyNaN
  | PyFloat x, PyFloat y => Ok (PyFloat (x - y)%Qc)
  | _, _ => Raise TypeError
  end.

Definition py_add (a b : pyval) : res pyval :=
  match a, b with
  | PyNaN, _ | _, PyNaN => Ok PyNaN
  | PyFloat x, PyFloat y => Ok (PyFloat (x + y)%Qc)
  | PyStr x, PyStr y => Ok (PyStr (x +:+ y))
  | _, _ => Raise TypeError
  end.

Definition py_sq (a : pyval) : res pyval :=
  match a with
  | PyNaN => Ok PyNaN
  | PyFloat x => Ok (PyFloat (x * x)%Qc)
  | _ => Raise TypeError
  end.

Definition py_abs (a : pyval) : res pyval :=
  match a with
  | PyNaN => Ok PyNaN
  | PyFloat x => Ok (PyFloat (Qcabs x))
  | _ => Raise TypeError
  end.

Fixpoint series_binop (op : pyval → pyval → res pyval) (a b : Series)
    : res Series :=
  match a, b with
  | x :: a', y :: b' =>
      z ← op x y; r ← series_binop op a' b'; mret (z :: r)
  | _, _ => mret []
  end.

Definition series_sub := series_binop py_sub.
Definition series_add := series_binop py_add.
Definition series_sq (a : Series) : res Series := mapM py_sq a.
Definition np_abs (a : Series) : res Series := mapM py_abs a.

(** [s == c] for a string constant: a mask, false on missing values. *)
Definition series_eq_str (s : Series) (c : string) : list bool :=
  (λ v, match v with PyStr x => String.eqb x c | _ => false end) <$> s.

(** [s > c] for a number: false on missing values. *)
Definition py_gt (c : Qc) (v : pyval) : res bool :=
  match v with
  | PyFloat x => Ok (bool_decide (c < x)%Qc)
  | PyNaN => Ok false
  | _ => Raise TypeError
  end.
Definition series_gt (s : Series) (c : Qc) : res (list bool) := mapM (py_gt c) s.

(** [np.sum] of a mask: the number of true entries. *)
Definition np_sum_mask (m : list bool) : Z :=
  Z.of_nat (length (filter (λ b, b = true) m)).

(** Boolean-mask selection. *)
Fixpoint select {A} (mask : list bool) (l : list A) : list A :=
  match mask, l with
  | b :: mask', x :: l' => if b then x :: select mask' l' else select mask' l'
  | _, _ => []
  end.

(** The numbers a reduction ranges over: missing values are skipped, a
    string makes the reduction fail. *)
Fixpoint numbers (s : Series) : res (list Qc) :=
  match s with
  | [] => mret []
  | PyNaN :: s' => numbers s'
  | PyFloat x :: s' => r ← numbers s'; mret (x :: r)
  | _ :: _ => Raise TypeError
  end.

Definition isna (v : pyval) : bool :=
  match v with PyNaN => true | _ => false end.

Definition dropna (s : Series) : Series := filter (λ v, isna v = false) s.

Definition Qcsum (l : list Qc) : Qc := foldr Qcplus 0%Qc l.

(** The arithmetic mean of a non-empty list of numbers. *)
Definition Qcmean (l : list Qc) : Qc :=
  (Qcsum l / Qc_of_Z (Z.of_nat (length l)))%Qc.

(** [s.mean ()], skipping missing values; NaN when nothing is left. *)
Definition series_mean (s : Series) : res pyval :=
  xs ← numbers s;
  match xs with
  | [] => mret PyNaN
  | _ => mret (PyFloat (Qcmean xs))
  end.

(** The variance under the square root of [s.std (ddof)]: the sum of
    squared deviations over [count - ddof]; NaN when [count <= ddof]. *)
Definition series_var (s : Series) (ddof : nat) : res pyval :=
  xs ← numbers s;
  if decide (length xs ≤ ddof) then mret PyNaN
  else
    let m := Qcmean xs in
    mret (PyFloat (Qcsum ((λ x, (x - m) * (x - m))%Qc <$> xs)
                   / Qc_of_Z (Z.of_nat (length xs - ddof)))%Qc).

(** ** pandas frames *)

Record DataFrame := mkDataFrame {
  index : list nat;
  columns : gmap string Series;
}.

(** [df[name]] *)
Definition getitem (df : DataFrame) (name : string) : res Series :=
  match columns df !! name with
  | Some s => Ok s
  | None => Raise KeyError
  end.

(** [df[name] = s] *)
Definition setitem (df : DataFrame) (name : string) (s : Series) : DataFrame :=
  mkDataFrame (index df) (<[name := s]> (columns df)).

(** [df[mask]] *)
Definition loc_mask (df : DataFrame) (mask : list bool) : DataFrame :=
  mkDataFrame (select mask (index df)) (select mask <$> columns df).

(** [df.shape[0]] *)
Definition shape0 (df : DataFrame) : nat := length (index df).

(** ** The script *)

Abbreviation Results := (gmap string pyval).

(** The metrics [calculate_HRV_metrics] holds in local variables when it
    reaches the test [n >= 500]. *)
Record Locals := mkLocals {
  loc_n : Z;
  loc_mean_nn : Z;
  loc_mean_bpm : pyval;
  loc_sdnn : pyval;
  loc_rmssd : pyval;
  loc_pnn20 : pyval;
  loc_pnn50 : pyval;
}.

(** Lines 80 to 121: the derived columns, the two filters and the
    metrics. *)
Definition hrv_compute (hrv_data : DataFrame) : res Locals :=
  (* hrv_df = hrv_data.copy() *)
  let hrv_df := hrv_data in
  (* hrv_df['time_next'] = hrv_df['time'].shift(-1) *)
  time ← getitem hrv_df "time";
  let hrv_df := setitem hrv_df "time_next" (shift (-1) time) in
  (* hrv_df['type_next'] = hrv_df['type'].shift(-1) *)
  type ← getitem hrv_df "type";
  let hrv_df := setitem hrv_df "type_next" (shift (-1) type) in
  (* hrv_df['rr'] = hrv_df['time_next']- hrv_df['time'] *)
  time_next ← getitem hrv_df "time_next";
  time ← getitem hrv_df "time";
  rr ← series_sub time_next time;
  let hrv_df := setitem hrv_df "rr" rr in
  (* hrv_df['rr_type'] = hrv_df['type']+hrv_df['type_next'] *)
  type ← getitem hrv_df "type";
  type_next ← getitem hrv_df "type_next";
  rr_type ← series_add type type_next;
  let hrv_df := setitem hrv_df "rr_type" rr_type in
  (* hrv_df['rr_next'] = hrv_df['rr'].shift(-1) *)
  rr ← getitem hrv_df "rr";
  let hrv_df := setitem hrv_df "rr_next" (shift (-1) rr) in
  (* hrv_df['diff'] = hrv_df['rr']-hrv_df['rr_next'] *)
  rr ← getitem hrv_df "rr";
  rr_next ← getitem hrv_df "rr_next";
  diff ← series_sub rr rr_next;
  let hrv_df := setitem hrv_df "diff" diff in
  (* hrv_df['diff_squared'] = hrv_df['diff']**2 *)
  diff ← getitem hrv_df "diff";
  diff_squared ← series_sq diff;
  let hrv_df := setitem hrv_df "diff_squared" diff_squared in
  (* hrv_df['rr_next_type'] =hrv_df['rr_type'].shift(-1) *)
  rr_type ← getitem hrv_df "rr_type";
  let hrv_df := setitem hrv_df "rr_next_type" (shift (-1) rr_type) in
  (* hrv_df = hrv_df[hrv_df['rr_type']=='NN'] *)
  rr_type ← getitem hrv_df "rr_type";
  let hrv_df := loc_mask hrv_df (series_eq_str rr_type "NN") in
  (* n = int(hrv_df.shape[0]) *)
  let n := Z.of_nat (shape0 hrv_df) in
  (* mean_nn = int(np.round(hrv_df['rr'].mean(),decimals=0)) *)
  rr ← getitem hrv_df "rr";
  m ← series_mean rr;
  m ← np_round m 0;
  mean_nn ← py_int m;
  (* mean_bpm = np.round((1000/mean_nn)*60,decimals=1) *)
  q ← py_truediv 1000 mean_nn;
  mean_bpm ← np_round (PyFloat (q * Qc_of_Z 60)%Qc) 1;
  (* sdnn = np.round(np.std(hrv_df['rr'], ddof=1),decimals=1) *)
  rr ← getitem hrv_df "rr";
  v ← series_var rr 1;
  sdnn ← np_round_sqrt v 1;
  (* hrv_rr_df = hrv_df[hrv_df['rr_next_type']=='NN'] *)
  rr_next_type ← getitem hrv_df "rr_next_type";
  let hrv_rr_df := loc_mask hrv_df (series_eq_str rr_next_type "NN") in
  (* rmssd = np.round(np.sqrt(np.mean(hrv_rr_df['diff_squared'].dropna())),decimals=1) *)
  diff_squared ← getitem hrv_rr_df "diff_squared";
  v ← series_mean (dropna diff_squared);
  rmssd ← np_round_sqrt v 1;
  (* pnn50 = np.round(100 * np.sum(np.abs(hrv_rr_df['diff']) > 50) / n,decimals=1) *)
  diff ← getitem hrv_rr_df "diff";
  a ← np_abs diff;
  gt ← series_gt a (Qc_of_Z 50);
  pnn50 ← np_round (np_truediv (100 * np_sum_mask gt) n) 1;
  (* pnn20 = np.round(100 * np.sum(np.abs(hrv_rr_df['diff']) > 20) / n,decimals=1) *)
  diff ← getitem hrv_rr_df "diff";
  a ← np_abs diff;
  gt ← series_gt a (Qc_of_Z 20);
  pnn20 ← np_round (np_truediv (100 * np_sum_mask gt) n) 1;
  mret (mkLocals n mean_nn mean_bpm sdnn rmssd pnn20 pnn50).

(** Lines 124 to 144: the dictionary the function returns. *)
Definition hrv_report (file_in : string) (l : Locals) : Results :=
  let results : Results := ∅ in
  if (500 <=? loc_n l)%Z then
    let results := <["filename" := PyStr file_in]> results in
    let results := <["n" := PyInt (loc_n l)]> results in
    let results := <["mean_nn" := PyInt (loc_mean_nn l)]> results in
    let results := <["mean_bpm" := loc_mean_bpm l]> results in
    let results := <["sdnn" := loc_sdnn l]> results in
    let results := <["rmssd" := loc_rmssd l]> results in
    let results := <["pnn20" := loc_pnn20 l]> results in
    let results := <["pnn50" := loc_pnn50 l]> results in
    results
  else
    let results := <["filename" := PyStr file_in]> results in
    let results := <["n" := PyInt (loc_n l)]> results in
    let results := <["mean_nn" := PyNone]> results in
    let results := <["mean_bpm" := PyNone]> results in
    let results := <["sdnn" := PyNone]> results in
    let results := <["rmssd" := PyNone]> results in
    let results := <["pnn20" := PyNone]> results in
    let results := <["pnn50" := PyNone]> results in
    results.

(** The body of the [try] block of [calculate_HRV_metrics].  [fs] holds,
    for every regular file of the dataset directory, the frame
    [pd.read_csv] returns for it.  When [os.path.isfile] fails the function
    prints a message and falls off its end, which returns [None]. *)
Definition calculate_HRV_metrics_try (fs : gmap string DataFrame)
    (file_in : string) : res (option Results) :=
  match fs !! file_in with
  | Some hrv_data =>
      l ← hrv_compute hrv_data;
      mret (Some (hrv_report file_in l))
  | None => mret None
  end.

(** [calculate_HRV_metrics]: the handler [except Exception as e] prints
    the exception and falls off the end of the function as well. *)
Definition calculate_HRV_metrics (fs : gmap string DataFrame)
    (file_in : string) : res (option Results) :=
  match calculate_HRV_metrics_try fs file_in with
  | Ok r => Ok r
  | Raise e => Ok None
  end.




(** Equality of values, exceptions and results is decidable, which lets
    closed instances be settled by evaluation. *)
Global Instance pyval_eq_dec : EqDecision pyval.
Proof. solve_decision. Defined.
Global Instance exn_eq_dec : EqDecision exn.
Proof. solve_decision. Defined.
Global Instance res_eq_dec {A} `{EqDecision A} : EqDecision (res A).
Proof. solve_decision. Defined.
Global Instance Locals_eq_dec : EqDecision Locals.
Proof. solve_decision. Defined.

(** ** Data files *)

(** A beat as the data files hold it: a timestamp and a beat-type code. *)
Record Beat := mkBeat {
  beat_time : Qc;
  beat_type : string;
}.

(** The frame [pd.read_csv] returns for a file with header [time,type]
    and one line per beat. *)
Definition read_csv (beats : list Beat) : DataFrame :=
  mkDataFrame (seq 0 (length beats))
    (<["type" := PyStr ∘ beat_type <$> beats]>
       (<["time" := PyFloat ∘ beat_time <$> beats]> ∅)).

(** The frame [pd.read_csv] returns for the given cells. *)
Definition raw_frame (times types : Series) : DataFrame :=
  mkDataFrame (seq 0 (length times))
    (<["type" := types]> (<["time" := times]> ∅)).


(** ** Reference definitions over well-formed input *)

(** The interval and the pair type of two consecutive beats. *)
Definition interval (a b : Beat) : Qc := (beat_time b - beat_time a)%Qc.
Definition pair_type (a b : Beat) : string := beat_type a +:+ beat_type b.
Definition is_NN (a b : Beat) : bool := String.eqb (pair_type a b) "NN".

(** The intervals of the pairs of type ["NN"], in order. *)
Fixpoint nn_intervals (bs : list Beat) : list Qc :=
  match bs with
  | a :: (b :: _) as tl =>
      if is_NN a b then interval a b :: nn_intervals tl else nn_intervals tl
  | _ => []
  end.

(** The successive differences [interval - next_interval] of the pairs of
    type ["NN"] whose following pair has type ["NN"] too. *)
Fixpoint nn_diffs (bs : list Beat) : list Qc :=
  match bs with
  | a :: (b :: c :: _) as tl =>
      if is_NN a b && is_NN b c
      then (interval a b - interval b c)%Qc :: nn_diffs tl
      else nn_diffs tl
  | _ => []
  end.

(** The number of consecutive pairs of beats that are both of type ["N"]. *)
Fixpoint count_NN (bs : list Beat) : nat :=
  match bs with
  | a :: (b :: _) as tl =>
      (if bool_decide (beat_type a = "N" ∧ beat_type b = "N") then 1 else 0)
      + count_NN tl
  | _ => 0
  end.

(** The number of differences whose absolute value exceeds [c]. *)
Definition count_gt (c : Qc) (diffs : list Qc) : Z :=
  Z.of_nat (length (filter (λ d, (c < Qcabs d)%Qc) diffs)).


Definition field_names : gset string :=
  {[ "filename"; "n"; "mean_nn"; "mean_bpm"; "sdnn"; "rmssd"; "pnn20"; "pnn50" ]}.

(** The six metric fields of a dictionary. *)
Definition metric_fields (r : Results) : list (option pyval) :=
  [ r !! "mean_nn"; r !! "mean_bpm"; r !! "sdnn"; r !! "rmssd";
    r !! "pnn20"; r !! "pnn50" ].


(** ** The frame row by row, and the metrics in closed form *)

(** The rows of the frame once all derived columns are set: row [i] looks
    at beats [i], [i+1] and [i+2]. *)
Record Row := mkRow {
  r_rr : pyval;
  r_rr_type : pyval;
  r_diff : pyval;
  r_rr_next_type : pyval;
}.

Definition row_of (a : Beat) (tl : list Beat) : Row :=
  match tl with
  | [] => mkRow PyNaN PyNaN PyNaN PyNaN
  | [b] => mkRow (PyFloat (interval a b)) (PyStr (pair_type a b)) PyNaN PyNaN
  | b :: c :: _ =>
      mkRow (PyFloat (interval a b)) (PyStr (pair_type a b))
            (PyFloat (interval a b - interval b c)%Qc) (PyStr (pair_type b c))
  end.

Fixpoint rows (bs : list Beat) : list Row :=
  match bs with
  | [] => []
  | a :: tl => row_of a tl :: rows tl
  end.

Definition sq_cell (v : pyval) : pyval :=
  match v with PyFloat x => PyFloat (x * x)%Qc | _ => PyNaN end.

Definition str_is (c : string) (v : pyval) : bool :=
  match v with PyStr x => String.eqb x c | _ => false end.

(** The rows of [hrv_df] after the filter on [rr_type], and the rows of
    [hrv_rr_df]. *)
Definition kept (bs : list Beat) : list Row :=
  filter (λ r, str_is "NN" (r_rr_type r) = true) (rows bs).
Definition kept2 (bs : list Beat) : list Row :=
  filter (λ r, str_is "NN" (r_rr_next_type r) = true) (kept bs).

Definition mean_bpm_of (mean_nn : Z) : Qc :=
  np_round_Q (Qc_of_Z 1000 / Qc_of_Z mean_nn * Qc_of_Z 60)%Qc 1.

Definition sdnn_of (rr : list Qc) : pyval :=
  if decide (length rr ≤ 1) then PyNaN
  else round_sqrt
         (Qcsum ((λ x, (x - Qcmean rr) * (x - Qcmean rr))%Qc <$> rr)
          / Qc_of_Z (Z.of_nat (length rr - 1)))%Qc 1.

Definition rmssd_of (diffs : list Qc) : pyval :=
  match diffs with
  | [] => PyNaN
  | _ => round_sqrt (Qcmean ((λ d, d * d)%Qc <$> diffs)) 1
  end.

Definition pnn_of (c : Z) (n : Z) (diffs : list Qc) : Qc :=
  np_round_Q (Qc_of_Z (100 * count_gt (Qc_of_Z c) diffs) / Qc_of_Z n)%Qc 1.

(** What lines 110 to 121 compute from the intervals [rr] of the retained
    pairs and the successive differences [diffs] of the second filter. *)
Definition hrv_stats (rr diffs : list Qc) : res Locals :=
  let n := Z.of_nat (length rr) in
  let mean_nn := rint (Qcmean rr) in
  match rr with
  | [] => Raise ValueError
  | _ =>
      if (mean_nn =? 0)%Z then Raise ZeroDivisionError
      else Ok (mkLocals n mean_nn (PyFloat (mean_bpm_of mean_nn))
                 (sdnn_of rr) (rmssd_of diffs)
                 (PyFloat (pnn_of 20 n diffs)) (PyFloat (pnn_of 50 n diffs)))
  end.

(** ** Concrete recordings *)

(** Beats of type ["N"] at the given times. *)
Definition N_beats (times : list Qc) : list Beat := (λ t, mkBeat t "N") <$> times.

(** The timestamps [0, step, 2 * step, ...], [k] of them. *)
Definition ramp (step : Qc) (k : nat) : list Qc :=
  (λ i, Qc_of_Z (Z.of_nat i) * step)%Qc <$> seq 0 k.

(** 501 beats of type ["N"], [step] apart. *)
Definition steady_beats (step : Qc) : list Beat := N_beats (ramp step 501).

Definition steady_fs (step : Qc) : gmap string DataFrame :=
  {[ "s.csv" := read_csv (steady_beats step) ]}.

(** A dictionary with the eight fields, the six metrics being numbers. *)
Definition record (file : string) (n mean_nn : Z)
    (mean_bpm sdnn rmssd pnn20 pnn50 : Qc) : Results :=
  list_to_map
    [ ("filename", PyStr file); ("n", PyInt n); ("mean_nn", PyInt mean_nn);
      ("mean_bpm", PyFloat mean_bpm); ("sdnn", PyFloat sdnn);
      ("rmssd", PyFloat rmssd); ("pnn20", PyFloat pnn20);
      ("pnn50", PyFloat pnn50) ].

(** A dictionary with the eight fields, the six metrics being null. *)
Definition null_record (file : string) (n : Z) : Results :=
  list_to_map
    [ ("filename", PyStr file); ("n", PyInt n); ("mean_nn", PyNone);
      ("mean_bpm", PyNone); ("sdnn", PyNone); ("rmssd", PyNone);
      ("pnn20", PyNone); ("pnn50", PyNone) ].

(** Three beats of type ["N"], 800 and then 900 apart. *)
Definition three_beats : list Beat :=
  N_beats [Qc_of_Z 0; Qc_of_Z 800; Qc_of_Z 1700].

(** * Part II: lemmas *)

(** ** The monad and frames *)

Lemma bind_Ok {A B} (a : A) (f : A → res B) : (Ok a ≫= f) = f a.
Proof. reflexivity. Qed.

Lemma bind_Raise {A B} (e : exn) (f : A → res B) : (Raise e ≫= f) = Raise e.
Proof. reflexivity. Qed.

Lemma getitem_setitem_eq df k s : getitem (setitem df k s) k = Ok s.
Proof. unfold getitem, setitem. simpl. by rewrite lookup_insert_eq. Qed.

Lemma getitem_setitem_ne df k k' s :
  k ≠ k' → getitem (setitem df k s) k' = getitem df k'.
Proof. intros. unfold getitem, setitem. simpl. by rewrite lookup_insert_ne. Qed.

Lemma getitem_loc_mask df mask k :
  getitem (loc_mask df mask) k =
  match getitem df k with Ok s => Ok (select mask s) | Raise e => Raise e end.
Proof.
  unfold getitem, loc_mask. simpl. rewrite lookup_fmap.
  by destruct (columns df !! k).
Qed.

Lemma getitem_read_csv_time bs :
  getitem (read_csv bs) "time" = Ok (PyFloat ∘ beat_time <$> bs).
Proof. reflexivity. Qed.

Lemma getitem_read_csv_type bs :
  getitem (read_csv bs) "type" = Ok (PyStr ∘ beat_type <$> bs).
Proof. reflexivity. Qed.

Lemma shift_m1_cons x (s : Series) : shift (-1) (x :: s) = s ++ [PyNaN].
Proof. reflexivity. Qed.

Lemma shift_m1_nil : shift (-1) [] = [].
Proof. reflexivity. Qed.

Lemma select_fmap {A B} (p : A → bool) (g : A → B) (l : list A) :
  select (p <$> l) (g <$> l) = g <$> filter (λ x, p x = true) l.
Proof.
  induction l as [|x l IH]; [done|].
  cbn [fmap list_fmap select]. rewrite filter_cons.
  destruct (p x); case_decide; try done; rewrite ?fmap_cons; by rewrite IH.
Qed.

Lemma length_select_fmap {A B} (p : A → bool) (l : list A) (l' : list B) :
  length l' = length l →
  length (select (p <$> l) l') = length (filter (λ x, p x = true) l).
Proof.
  revert l'. induction l as [|x l IH]; intros [|y l'] Hl; try done.
  cbn [fmap list_fmap select]. rewrite filter_cons.
  injection Hl as Hl.
  destruct (p x); case_decide; try done; simpl; by rewrite IH.
Qed.

Lemma series_eq_str_fmap {A} (g : A → pyval) (l : list A) c :
  series_eq_str (g <$> l) c = (str_is c ∘ g) <$> l.
Proof. unfold series_eq_str. by rewrite <- list_fmap_compose. Qed.

(** ** The derived columns of a well-formed frame *)

Lemma series_binop_cons op x (a : Series) y (b : Series) :
  series_binop op (x :: a) (y :: b)
  = (z ← op x y; r ← series_binop op a b; mret (z :: r)).
Proof. reflexivity. Qed.

Lemma rr_column a tl :
  series_sub ((PyFloat ∘ beat_time <$> tl) ++ [PyNaN])
             (PyFloat ∘ beat_time <$> a :: tl)
  = Ok (r_rr <$> rows (a :: tl)).
Proof.
  unfold series_sub. revert a.
  induction tl as [|b tl IH]; intros a; [done|].
  pose proof (IH b) as IHb. rewrite fmap_cons in IHb.
  rewrite !fmap_cons, <- app_comm_cons, series_binop_cons, IHb.
  by destruct tl.
Qed.

Lemma rr_type_column a tl :
  series_add (PyStr ∘ beat_type <$> a :: tl)
             ((PyStr ∘ beat_type <$> tl) ++ [PyNaN])
  = Ok (r_rr_type <$> rows (a :: tl)).
Proof.
  unfold series_add. revert a.
  induction tl as [|b tl IH]; intros a; [done|].
  pose proof (IH b) as IHb. rewrite fmap_cons in IHb.
  rewrite !fmap_cons, <- app_comm_cons, series_binop_cons, IHb.
  by destruct tl.
Qed.

Lemma diff_column a tl :
  series_sub (r_rr <$> rows (a :: tl)) ((r_rr <$> rows tl) ++ [PyNaN])
  = Ok (r_diff <$> rows (a :: tl)).
Proof.
  unfold series_sub. revert a.
  induction tl as [|b tl IH]; intros a; [done|].
  change (rows (a :: b :: tl)) with (row_of a (b :: tl) :: rows (b :: tl)).
  rewrite !(fmap_cons _ (row_of a (b :: tl))).
  assert ((r_rr <$> rows (b :: tl)) ++ [PyNaN]
          = r_rr (row_of b tl) :: ((r_rr <$> rows tl) ++ [PyNaN])) as -> by done.
  rewrite series_binop_cons, IH. by destruct tl as [|c [|d tl]].
Qed.

Lemma rr_next_type_column bs :
  shift (-1) (r_rr_type <$> rows bs) = r_rr_next_type <$> rows bs.
Proof.
  destruct bs as [|a tl]; [done|].
  change (rows (a :: tl)) with (row_of a tl :: rows tl).
  rewrite !fmap_cons, shift_m1_cons.
  revert a. induction tl as [|b tl IH]; intros a; [done|].
  change (rows (b :: tl)) with (row_of b tl :: rows tl).
  rewrite !fmap_cons, <- app_comm_cons, (IH b). by destruct tl as [|c [|d tl]].
Qed.

Lemma diff_squared_column bs :
  series_sq (r_diff <$> rows bs) = Ok (sq_cell ∘ r_diff <$> rows bs).
Proof.
  unfold series_sq. induction bs as [|a tl IH]; [done|].
  change (rows (a :: tl)) with (row_of a tl :: rows tl).
  rewrite !fmap_cons. cbn [mapM]. rewrite IH.
  by destruct tl as [|? [|? ?]].
Qed.

Lemma length_rows bs : length (rows bs) = length bs.
Proof. induction bs as [|a tl IH]; [done|]. simpl. by rewrite IH. Qed.

(** ** The two filters *)

Lemma kept_cons a tl :
  kept (a :: tl) =
  if str_is "NN" (r_rr_type (row_of a tl)) then row_of a tl :: kept tl else kept tl.
Proof.
  unfold kept. cbn [rows]. rewrite filter_cons.
  destruct (str_is "NN" (r_rr_type (row_of a tl))); by case_decide.
Qed.

Lemma kept2_cons a tl :
  kept2 (a :: tl) =
  if str_is "NN" (r_rr_type (row_of a tl)) && str_is "NN" (r_rr_next_type (row_of a tl))
  then row_of a tl :: kept2 tl else kept2 tl.
Proof.
  unfold kept2. rewrite kept_cons.
  destruct (str_is "NN" (r_rr_type (row_of a tl))); [|done].
  rewrite filter_cons.
  destruct (str_is "NN" (r_rr_next_type (row_of a tl))); by case_decide.
Qed.

Lemma kept_rr bs : r_rr <$> kept bs = PyFloat <$> nn_intervals bs.
Proof.
  induction bs as [|a tl IH]; [done|]. rewrite kept_cons.
  destruct tl as [|b tl]; [done|].
  assert (r_rr_type (row_of a (b :: tl)) = PyStr (pair_type a b)) as ->
    by by destruct tl.
  assert (r_rr (row_of a (b :: tl)) = PyFloat (interval a b)) as Hrr
    by by destruct tl.
  cbn [nn_intervals str_is]. unfold is_NN.
  destruct (String.eqb (pair_type a b) "NN"); [|done].
  by rewrite !fmap_cons, IH, Hrr.
Qed.

Lemma kept2_diff bs : r_diff <$> kept2 bs = PyFloat <$> nn_diffs bs.
Proof.
  induction bs as [|a tl IH]; [done|]. rewrite kept2_cons.
  destruct tl as [|b [|c tl]].
  - done.
  - cbn [row_of r_rr_type r_rr_next_type str_is]. by rewrite andb_false_r.
  - cbn [row_of r_rr_type r_rr_next_type r_diff nn_diffs str_is]. unfold is_NN.
    destruct (_ && _); [|done]. by rewrite !fmap_cons, IH.
Qed.

Lemma length_kept bs : length (kept bs) = length (nn_intervals bs).
Proof. by rewrite <- (length_fmap r_rr), kept_rr, length_fmap. Qed.

Lemma select_kept {B} (g : Row → B) bs :
  select (series_eq_str (r_rr_type <$> rows bs) "NN") (g <$> rows bs)
  = g <$> kept bs.
Proof. by rewrite series_eq_str_fmap, select_fmap. Qed.

Lemma select_kept2 {B} (g : Row → B) bs :
  select (series_eq_str (r_rr_next_type <$> kept bs) "NN") (g <$> kept bs)
  = g <$> kept2 bs.
Proof. by rewrite series_eq_str_fmap, select_fmap. Qed.

Lemma shape0_kept df bs :
  index df = seq 0 (length bs) →
  shape0 (loc_mask df (series_eq_str (r_rr_type <$> rows bs) "NN"))
  = length (nn_intervals bs).
Proof.
  intros Hi. unfold shape0, loc_mask. cbn [index]. rewrite Hi.
  rewrite series_eq_str_fmap, length_select_fmap.
  - apply length_kept.
  - by rewrite length_seq, length_rows.
Qed.

Lemma sq_cell_kept2 bs :
  sq_cell ∘ r_diff <$> kept2 bs = PyFloat <$> ((λ d, d * d)%Qc <$> nn_diffs bs).
Proof.
  rewrite list_fmap_compose, kept2_diff. by rewrite <- !list_fmap_compose.
Qed.

(** ** Reductions over columns of numbers *)

Lemma numbers_floats (l : list Qc) : numbers (PyFloat <$> l) = Ok l.
Proof. induction l as [|x l IH]; [done|]. rewrite fmap_cons. simpl. by rewrite IH. Qed.

Lemma dropna_floats (l : list Qc) : dropna (PyFloat <$> l) = PyFloat <$> l.
Proof.
  unfold dropna. induction l as [|x l IH]; [done|].
  rewrite fmap_cons, filter_cons. rewrite decide_True by done. by rewrite IH.
Qed.

Lemma series_mean_floats (l : list Qc) :
  series_mean (PyFloat <$> l)
  = Ok (match l with [] => PyNaN | _ => PyFloat (Qcmean l) end).
Proof. unfold series_mean. rewrite numbers_floats. by destruct l. Qed.

Lemma series_var_floats (l : list Qc) ddof :
  series_var (PyFloat <$> l) ddof
  = Ok (if decide (length l ≤ ddof) then PyNaN
        else PyFloat (Qcsum ((λ x, (x - Qcmean l) * (x - Qcmean l))%Qc <$> l)
                      / Qc_of_Z (Z.of_nat (length l - ddof)))%Qc).
Proof. unfold series_var. rewrite numbers_floats. rewrite bind_Ok. by case_decide. Qed.

Lemma np_abs_floats (l : list Qc) :
  np_abs (PyFloat <$> l) = Ok (PyFloat ∘ Qcabs <$> l).
Proof.
  unfold np_abs. induction l as [|x l IH]; [done|].
  rewrite !fmap_cons. cbn [mapM]. by rewrite IH.
Qed.

Lemma series_gt_floats (l : list Qc) (g : Qc → Qc) c :
  series_gt (PyFloat ∘ g <$> l) c = Ok ((λ x, bool_decide (c < g x)%Qc) <$> l).
Proof.
  unfold series_gt. induction l as [|x l IH]; [done|].
  rewrite !fmap_cons. cbn [mapM]. by rewrite IH.
Qed.

Lemma np_sum_mask_decide {A} (P : A → Prop) `{∀ x, Decision (P x)} (l : list A) :
  np_sum_mask ((λ x, bool_decide (P x)) <$> l) = Z.of_nat (length (filter P l)).
Proof.
  unfold np_sum_mask. f_equal.
  induction l as [|x l IH]; [done|].
  rewrite fmap_cons, !filter_cons.
  destruct (decide (P x)) as [Hx|Hx].
  - rewrite bool_decide_true by done. rewrite decide_True by done. simpl. by rewrite IH.
  - rewrite bool_decide_false by done. rewrite decide_False by done. by rewrite IH.
Qed.

Lemma np_truediv_nonzero a b :
  b ≠ 0%Z → np_truediv a b = PyFloat (Qc_of_Z a / Qc_of_Z b)%Qc.
Proof. intros Hb. unfold np_truediv. by rewrite (proj2 (Z.eqb_neq b 0) Hb). Qed.

(** ** Rounding *)

Lemma pow10_0 : pow10 0 = 1%Qc.
Proof. apply Z2Qc_inj_1. Qed.

Lemma np_round_Q_0 (x : Qc) : np_round_Q x 0 = Qc_of_Z (rint x).
Proof.
  unfold np_round_Q. rewrite pow10_0, Qcmult_1_r. apply (right_id 1%Qc Qcdiv).
Qed.

Lemma py_int_of_Z z : py_int (PyFloat (Qc_of_Z z)) = Ok z.
Proof.
  unfold py_int. cbn [this Qc_of_Z].
  rewrite Qfloor_Z, Qceiling_Z. by destruct (Qle_bool _ _).
Qed.

Lemma rint_cases x :
  let f := Qfloor x in
  ((x - inject_Z f < 1 # 2)%Q ∧ rint x = f) ∨
  ((x - inject_Z f == 1 # 2)%Q ∧ rint x = if Z.even f then f else (f + 1)%Z) ∨
  ((1 # 2 < x - inject_Z f)%Q ∧ rint x = (f + 1)%Z).
Proof.
  intros f. unfold rint. fold f.
  destruct (x - inject_Z f ?= 1 # 2)%Q eqn:C.
  - right; left. split; [ by apply Qeq_alt | done ].
  - left. split; [ by apply Qlt_alt | done ].
  - right; right. split; [ by apply Qgt_alt in C | done ].
Qed.

(** The rounded value is within one half of the argument. *)
Lemma rint_bounds x :
  (inject_Z (rint x) - (1 # 2) <= x)%Q ∧ (x <= inject_Z (rint x) + (1 # 2))%Q.
Proof.
  pose proof (Qfloor_le x) as H1. pose proof (Qlt_floor x) as H2.
  rewrite inject_Z_plus in H2. change (inject_Z 1) with 1%Q in H2.
  destruct (rint_cases x) as [[C ->]|[[C ->]|[C ->]]];
    repeat case_match; rewrite ?inject_Z_plus; change (inject_Z 1) with 1%Q;
    split; lra.
Qed.

(** [rint_sqrt y] is the integer nearest to the square root of [y]:
    [k - 1/2 <= sqrt y <= k + 1/2], stated on the squares. *)
Lemma rint_sqrt_spec y :
  (0 <= y)%Q →
  (0 ≤ rint_sqrt y)%Z ∧
  (4 * y <= inject_Z ((2 * rint_sqrt y + 1) * (2 * rint_sqrt y + 1)))%Q ∧
  ((1 ≤ rint_sqrt y)%Z →
   (inject_Z ((2 * rint_sqrt y - 1) * (2 * rint_sqrt y - 1)) <= 4 * y)%Q).
Proof.
  intros Hy.
  assert (0 ≤ Qfloor y)%Z as Hf.
  { change 0%Z with (Qfloor 0). by apply Qfloor_resp_le. }
  pose proof (Z.sqrt_spec (Qfloor y) Hf) as [Hs1 Hs2].
  pose proof (Z.sqrt_nonneg (Qfloor y)) as Hk.
  pose proof (Qfloor_le y) as H1. pose proof (Qlt_floor y) as H2.
  unfold rint_sqrt. set (k := Z.sqrt (Qfloor y)) in *.
  assert (inject_Z (k * k) <= y)%Q as Hlo.
  { eapply Qle_trans; [|exact H1]. by rewrite <- Zle_Qle. }
  assert (y < inject_Z ((k + 1) * (k + 1)))%Q as Hhi.
  { eapply Qlt_le_trans; [exact H2|]. rewrite <- Zle_Qle. lia. }
  assert (0 <= inject_Z k)%Q as Hk' by (by rewrite <- (Zle_Qle 0)).
  assert (∀ j, inject_Z ((2 * j - 1) * (2 * j - 1))
               == (2 * inject_Z j - 1) * (2 * inject_Z j - 1))%Q as Hm.
  { intros j. replace (2 * j - 1)%Z with (2 * j + -1)%Z by lia.
    rewrite !inject_Z_mult, !inject_Z_plus, !inject_Z_mult.
    change (inject_Z 2) with 2%Q. change (inject_Z (-1)) with (-1 # 1)%Q. ring. }
  assert (∀ j, inject_Z ((2 * j + 1) * (2 * j + 1))
               == (2 * inject_Z j + 1) * (2 * inject_Z j + 1))%Q as Hp.
  { intros j. rewrite !inject_Z_mult, !inject_Z_plus, !inject_Z_mult.
    change (inject_Z 2) with 2%Q. change (inject_Z 1) with 1%Q. ring. }
  rewrite inject_Z_mult in Hlo.
  rewrite inject_Z_mult, !inject_Z_plus in Hhi.
  change (inject_Z 1) with 1%Q in Hhi.
  destruct (y ?= inject_Z (k * k + k) + (1 # 4))%Q eqn:C.
  - apply Qeq_alt in C. rewrite inject_Z_plus, inject_Z_mult in C.
    destruct (Z.even k); (split; [lia|]); rewrite Hm, Hp, ?inject_Z_plus;
      change (inject_Z 1) with 1%Q; (split; [|intros _]); nra.
  - apply Qlt_alt in C. rewrite inject_Z_plus, inject_Z_mult in C.
    split; [lia|]. rewrite Hm, Hp. split; [nra|]. intros Hk1.
    assert (1 <= inject_Z k)%Q by (by rewrite <- (Zle_Qle 1)). nra.
  - apply Qgt_alt in C. rewrite inject_Z_plus, inject_Z_mult in C.
    split; [lia|]. rewrite Hm, Hp, inject_Z_plus.
    change (inject_Z 1) with 1%Q. split; [|intros _]; nra.
Qed.

(** Ties go to the even neighbour: [np.round (0.5) = 0.0],
    [np.round (1.5) = np.round (2.5) = 2.0] and, on exact decimals,
    [np.round (0.25, 1) = 0.2] and [np.round (0.35, 1) = 0.4]. *)
Example rint_ties :
  rint (1 # 2) = 0%Z ∧ rint (3 # 2) = 2%Z ∧ rint (5 # 2) = 2%Z ∧
  rint (-1 # 2) = 0%Z ∧ rint (-3 # 2) = (-2)%Z ∧
  np_round_Q (Q2Qc (25 # 100)) 1 = Q2Qc (2 # 10) ∧
  np_round_Q (Q2Qc (35 # 100)) 1 = Q2Qc (4 # 10).
Proof. repeat split; by apply (bool_decide_unpack _). Qed.

(** The rate is computed from the rounded mean: for intervals of 0.8 the
    raw mean would give 75000.0, the rounded mean 1 gives 60000.0. *)
Example rate_uses_rounded_mean :
  Qcmean (nn_intervals (steady_beats (Q2Qc (8 # 10)))) = Q2Qc (8 # 10) ∧
  np_round_Q (Qc_of_Z 60000 / Q2Qc (8 # 10)) 1 = Qc_of_Z 75000 ∧
  mean_bpm_of (rint (Q2Qc (8 # 10))) = Qc_of_Z 60000.
Proof. repeat split; apply (bool_decide_unpack _); vm_compute; exact I. Qed.

Lemma rint_mono x y : (x <= y)%Q → (rint x ≤ rint y)%Z.
Proof.
  intros L.
  pose proof (Qfloor_resp_le _ _ L) as Hf.
  pose proof (Qfloor_le x) as Hx1. pose proof (Qlt_floor x) as Hx2.
  pose proof (Qfloor_le y) as Hy1. pose proof (Qlt_floor y) as Hy2.
  rewrite inject_Z_plus in Hx2, Hy2.
  destruct (rint_cases x) as [[Cx ->]|[[Cx ->]|[Cx ->]]];
  destruct (rint_cases y) as [[Cy ->]|[[Cy ->]|[Cy ->]]];
  repeat case_match; try lia;
  (destruct (decide (Qfloor x = Qfloor y)) as [E|NE]; [ | lia ]);
  exfalso; rewrite E in *; try congruence; lra.
Qed.

Lemma Qfloor_small x : (-1 # 2 <= x)%Q → (x <= 1 # 2)%Q → Qfloor x = (-1)%Z ∨ Qfloor x = 0%Z.
Proof.
  intros Hl Hu.
  pose proof (Qfloor_le x) as H1. pose proof (Qlt_floor x) as H2.
  rewrite inject_Z_plus in H2.
  change (inject_Z 1) with 1%Q in H2.
  assert (Qfloor x < 1)%Z
    by (rewrite Zlt_Qlt; change (inject_Z 1) with 1%Q; lra).
  assert (-2 < Qfloor x)%Z
    by (rewrite Zlt_Qlt; change (inject_Z (-2)) with (-2 # 1)%Q; lra).
  lia.
Qed.

(** The rounded value is zero exactly on the interval [[-1/2, 1/2]]. *)
Lemma rint_zero x : (-1 # 2 <= x)%Q → (x <= 1 # 2)%Q → rint x = 0%Z.
Proof.
  intros Hl Hu.
  destruct (rint_cases x) as [[C ->]|[[C ->]|[C ->]]];
    destruct (Qfloor_small x Hl Hu) as [E|E]; rewrite E in *; try done;
    exfalso;
    change (inject_Z (-1)) with (-1 # 1)%Q in C;
    change (inject_Z 0) with 0%Q in C; lra.
Qed.

Lemma pow10_pos d : (0 < pow10 d)%Qc.
Proof.
  unfold pow10. rewrite <- Z2Qc_inj_0. apply (proj1 (Z2Qc_inj_lt _ _)).
  apply Z.pow_pos_nonneg; lia.
Qed.

Lemma np_round_Q_mono x y d : (x ≤ y)%Qc → (np_round_Q x d ≤ np_round_Q y d)%Qc.
Proof.
  intros L. unfold np_round_Q, Qcdiv.
  apply Qcmult_le_compat_r.
  - apply (proj1 (Z2Qc_inj_le _ _)), rint_mono.
    apply (Qcmult_le_compat_r x y (pow10 d)); [done|].
    apply Qclt_le_weak, pow10_pos.
  - apply Qclt_le_weak, Qcinv_pos, pow10_pos.
Qed.

Lemma count_gt_anti c c' diffs : (c ≤ c')%Qc → (count_gt c' diffs ≤ count_gt c diffs)%Z.
Proof.
  intros L. unfold count_gt. apply inj_le.
  induction diffs as [|d l IH]; [done|].
  rewrite !filter_cons.
  destruct (decide (c' < Qcabs d)%Qc) as [H|H].
  - rewrite decide_True by (by eapply Qcle_lt_trans). simpl. lia.
  - case_decide; simpl; lia.
Qed.


(** ** The computation on a well-formed frame *)

Ltac frame_step :=
  first
    [ rewrite getitem_setitem_eq
    | rewrite getitem_setitem_ne by done
    | rewrite getitem_loc_mask
    | rewrite getitem_read_csv_time
    | rewrite getitem_read_csv_type
    | rewrite bind_Ok
    | rewrite select_kept
    | rewrite select_kept2
    | progress cbv beta iota ].

Lemma hrv_compute_read_csv bs :
  hrv_compute (read_csv bs) = hrv_stats (nn_intervals bs) (nn_diffs bs).
Proof.
  unfold hrv_compute. cbv zeta.
  repeat frame_step.
  assert (series_sub (shift (-1) (PyFloat ∘ beat_time <$> bs))
                     (PyFloat ∘ beat_time <$> bs) = Ok (r_rr <$> rows bs)) as ->.
  { destruct bs as [|a tl]; [done|]. rewrite fmap_cons, shift_m1_cons.
    apply rr_column. }
  repeat frame_step.
  assert (series_add (PyStr ∘ beat_type <$> bs)
                     (shift (-1) (PyStr ∘ beat_type <$> bs))
          = Ok (r_rr_type <$> rows bs)) as ->.
  { destruct bs as [|a tl]; [done|]. rewrite (fmap_cons _ a) at 2.
    rewrite shift_m1_cons. apply rr_type_column. }
  repeat frame_step.
  assert (series_sub (r_rr <$> rows bs) (shift (-1) (r_rr <$> rows bs))
          = Ok (r_diff <$> rows bs)) as ->.
  { destruct bs as [|a tl]; [done|].
    change (rows (a :: tl)) with (row_of a tl :: rows tl) at 2.
    rewrite fmap_cons, shift_m1_cons. apply diff_column. }
  repeat frame_step.
  rewrite diff_squared_column.
  repeat frame_step.
  rewrite rr_next_type_column.
  rewrite shape0_kept by done.
  repeat frame_step.
  rewrite kept_rr, series_mean_floats.
  unfold hrv_stats.
  destruct (nn_intervals bs) as [|x rr] eqn:Hrr; [done|].
  rewrite <- Hrr.
  assert (Z.of_nat (length (nn_intervals bs)) ≠ 0%Z) as Hn
    by (rewrite Hrr; simpl; lia).
  clear Hrr x rr.
  rewrite bind_Ok. cbn [np_round]. rewrite bind_Ok, np_round_Q_0, py_int_of_Z, bind_Ok.
  unfold py_truediv.
  destruct (rint (Qcmean (nn_intervals bs)) =? 0)%Z; [done|].
  repeat frame_step.
  rewrite series_var_floats, bind_Ok.
  assert (np_round_sqrt
            (if decide (length (nn_intervals bs) ≤ 1) then PyNaN
             else PyFloat
                    (Qcsum ((λ x, (x - Qcmean (nn_intervals bs))
                                  * (x - Qcmean (nn_intervals bs)))%Qc
                            <$> nn_intervals bs)
                     / Qc_of_Z (Z.of_nat (length (nn_intervals bs) - 1)))%Qc) 1
          = Ok (sdnn_of (nn_intervals bs))) as ->.
  { unfold sdnn_of. by case_decide. }
  repeat frame_step.
  rewrite sq_cell_kept2, dropna_floats, series_mean_floats, bind_Ok.
  assert (np_round_sqrt
            match (λ d, d * d)%Qc <$> nn_diffs bs with
            | [] => PyNaN
            | _ :: _ => PyFloat (Qcmean ((λ d, d * d)%Qc <$> nn_diffs bs))
            end 1
          = Ok (rmssd_of (nn_diffs bs))) as ->.
  { unfold rmssd_of. by destruct (nn_diffs bs). }
  repeat frame_step.
  rewrite kept2_diff, np_abs_floats, bind_Ok, series_gt_floats, bind_Ok.
  rewrite np_sum_mask_decide, np_truediv_nonzero by done.
  cbn [np_round]. rewrite !bind_Ok.
  rewrite np_abs_floats, bind_Ok, series_gt_floats, bind_Ok.
  rewrite np_sum_mask_decide, np_truediv_nonzero by done.
  cbn [np_round]. rewrite bind_Ok.
  reflexivity.
Qed.

Lemma hrv_stats_Ok rr diffs l :
  hrv_stats rr diffs = Ok l →
  rr ≠ [] ∧ rint (Qcmean rr) ≠ 0%Z ∧
  l = mkLocals (Z.of_nat (length rr)) (rint (Qcmean rr))
        (PyFloat (mean_bpm_of (rint (Qcmean rr))))
        (sdnn_of rr) (rmssd_of diffs)
        (PyFloat (pnn_of 20 (Z.of_nat (length rr)) diffs))
        (PyFloat (pnn_of 50 (Z.of_nat (length rr)) diffs)).
Proof.
  unfold hrv_stats. destruct rr as [|x rr]; [done|].
  destruct (Z.eqb_spec (rint (Qcmean (x :: rr))) 0) as [E|E]; [done|].
  intros [= <-]. done.
Qed.

Lemma hrv_stats_defined rr diffs :
  rr ≠ [] → rint (Qcmean rr) ≠ 0%Z → ∃ l, hrv_stats rr diffs = Ok l.
Proof.
  intros Hrr Hm. unfold hrv_stats. destruct rr as [|x rr]; [done|].
  rewrite (proj2 (Z.eqb_neq _ 0) Hm). eauto.
Qed.

(** ** The returned dictionary *)

Lemma dom_hrv_report file l : dom (hrv_report file l) = field_names.
Proof.
  unfold hrv_report, field_names.
  destruct (500 <=? loc_n l)%Z; rewrite !dom_insert_L, dom_empty_L; set_solver.
Qed.

Lemma hrv_report_filename file l :
  hrv_report file l !! "filename" = Some (PyStr file).
Proof. unfold hrv_report. by destruct (500 <=? loc_n l)%Z. Qed.

Lemma hrv_report_n file l : hrv_report file l !! "n" = Some (PyInt (loc_n l)).
Proof. unfold hrv_report. by destruct (500 <=? loc_n l)%Z. Qed.

Lemma hrv_report_below file l :
  (loc_n l < 500)%Z →
  metric_fields (hrv_report file l) = replicate 6 (Some PyNone).
Proof.
  intros Hn. unfold hrv_report.
  by rewrite (proj2 (Z.leb_gt 500 (loc_n l)) Hn).
Qed.

Lemma hrv_report_above file l :
  (500 ≤ loc_n l)%Z →
  metric_fields (hrv_report file l)
  = [ Some (PyInt (loc_mean_nn l)); Some (loc_mean_bpm l); Some (loc_sdnn l);
      Some (loc_rmssd l); Some (loc_pnn20 l); Some (loc_pnn50 l) ].
Proof.
  intros Hn. unfold hrv_report.
  by rewrite (proj2 (Z.leb_le 500 (loc_n l)) Hn).
Qed.

(** ** The function and its handler *)

Ltac by_evaluation := apply (bool_decide_unpack _); vm_compute; exact I.




(** Whatever the frame, a returned dictionary has the eight fields. *)
Lemma calculate_dom fs file r :
  calculate_HRV_metrics fs file = Ok (Some r) → dom r = field_names.
Proof.
  unfold calculate_HRV_metrics, calculate_HRV_metrics_try.
  destruct (fs !! file) as [df|]; [|done].
  destruct (hrv_compute df) as [l|e]; [|done].
  intros [= <-]. apply dom_hrv_report.
Qed.

(** A file that holds a well-formed recording. *)
Section well_formed_file.
Context (fs : gmap string DataFrame) (file : string) (bs : list Beat).
Hypothesis Hfile : fs !! file = Some (read_csv bs).

Lemma calculate_read_csv :
  calculate_HRV_metrics fs file
  = Ok match hrv_stats (nn_intervals bs) (nn_diffs bs) with
       | Ok l => Some (hrv_report file l)
       | Raise _ => None
       end.
Proof.
  unfold calculate_HRV_metrics, calculate_HRV_metrics_try.
  rewrite Hfile, hrv_compute_read_csv.
  by destruct (hrv_stats _ _).
Qed.

Lemma calculate_Some r :
  calculate_HRV_metrics fs file = Ok (Some r) →
  ∃ l, hrv_stats (nn_intervals bs) (nn_diffs bs) = Ok l ∧ r = hrv_report file l.
Proof.
  rewrite calculate_read_csv.
  destruct (hrv_stats _ _) as [l|e]; [|done].
  intros [= <-]. eauto.
Qed.

(** When the metrics can be computed the claim of C1 does hold: with at
    least one and fewer than 500 NN pairs and a rounded mean interval other
    than zero, the record has the eight fields, the identifier, the count
    and six null metrics. *)
Lemma below_threshold_record :
  0 < length (nn_intervals bs) < 500 →
  rint (Qcmean (nn_intervals bs)) ≠ 0%Z →
  ∃ r, calculate_HRV_metrics fs file = Ok (Some r) ∧
       dom r = field_names ∧
       r !! "filename" = Some (PyStr file) ∧
       r !! "n" = Some (PyInt (Z.of_nat (length (nn_intervals bs)))) ∧
       metric_fields r = replicate 6 (Some PyNone).
Proof.
  intros [Hn1 Hn2] Hm. rewrite calculate_read_csv.
  destruct (hrv_stats_defined (nn_intervals bs) (nn_diffs bs)) as [l Hl];
    [by destruct (nn_intervals bs); simpl in *; try lia | done |].
  rewrite Hl. apply hrv_stats_Ok in Hl as (_ & _ & ->).
  eexists; split; [done|].
  rewrite dom_hrv_report, hrv_report_filename, hrv_report_n.
  repeat split. apply hrv_report_below. simpl. lia.
Qed.

End well_formed_file.


(** A missing beat type raises nothing either: the cell is NaN, the two
    pairs it belongs to are not of type ["NN"], and a record is returned. *)
Example missing_type_is_skipped :
  calculate_HRV_metrics
    {[ "s.csv" := raw_frame (PyFloat ∘ Qc_of_Z <$> [0; 800; 1600; 2400; 3200]%Z)
                            [PyStr "N"; PyStr "N"; PyNaN; PyStr "N"; PyStr "N"] ]}
    "s.csv"
  = Ok (Some (null_record "s.csv" 2)).
Proof. by_evaluation. Qed.

(** ** Counting the pairs of normal beats *)

Lemma append_is_NN (s1 s2 : string) :
  s1 ≠ "" → s2 ≠ "" →
  String.eqb (s1 +:+ s2) "NN" = bool_decide (s1 = "N" ∧ s2 = "N").
Proof.
  intros H1 H2.
  destruct (String.eqb_spec (s1 +:+ s2) "NN") as [E|E]; symmetry.
  - apply bool_decide_eq_true.
    destruct s1 as [|c1 s1]; [done|]. destruct s2 as [|c2 s2]; [done|].
    injection E as -> E.
    destruct s1 as [|c s1].
    + by injection E as -> ->.
    + injection E as _ E. by destruct s1.
  - apply bool_decide_eq_false. intros [-> ->]. by apply E.
Qed.

Lemma nn_intervals_cons a b tl :
  nn_intervals (a :: b :: tl)
  = if is_NN a b then interval a b :: nn_intervals (b :: tl)
    else nn_intervals (b :: tl).
Proof. reflexivity. Qed.

Lemma count_NN_cons a b tl :
  count_NN (a :: b :: tl)
  = (if bool_decide (beat_type a = "N" ∧ beat_type b = "N") then 1 else 0)
    + count_NN (b :: tl).
Proof. reflexivity. Qed.

Lemma length_nn_intervals bs :
  Forall (λ b, beat_type b ≠ "") bs →
  length (nn_intervals bs) = count_NN bs.
Proof.
  induction 1 as [|a tl Ha Htl IH]; [done|].
  destruct tl as [|b tl]; [done|].
  rewrite nn_intervals_cons, count_NN_cons. unfold is_NN, pair_type.
  rewrite append_is_NN by (done || by inversion Htl).
  case_bool_decide; cbn [length]; by rewrite IH.
Qed.

(** ** The batch loop *)



(** * Part III: the claims *)

(** C1 (code defect).  The claim: every recording with fewer than 500 NN
    pairs yields a record with the identifier, the count and six null
    metrics.  The script computes the metrics before it tests the count, so
    a recording without any NN pair never reaches the test: here a file
    with a single beat has [n = 0 < 500], the mean of no interval is NaN,
    [int] raises [ValueError], the handler swallows it and the function
    returns [None] instead of a record. *)
Theorem C1_single_beat_returns_no_record :
  length (nn_intervals [mkBeat 0 "N"]) = 0 ∧
  hrv_compute (read_csv [mkBeat 0 "N"]) = Raise ValueError ∧
  calculate_HRV_metrics {[ "s.csv" := read_csv [mkBeat 0 "N"] ]} "s.csv" = Ok None.
Proof. repeat split; by_evaluation. Qed.

(** C2 (counterexample).  With timestamps [0, 0.8, 1.6, ...] the intervals
    are 0.8 and the script, which never converts seconds to milliseconds,
    rounds their mean to 1 and reports a rate of 60000: the record holds
    neither [mean_nn = 800] nor [mean_bpm = 75.0]. *)
Lemma C2_counterexample_seconds :
  ∃ r, calculate_HRV_metrics (steady_fs (Q2Qc (8 # 10))) "s.csv" = Ok (Some r) ∧
       r !! "mean_nn" = Some (PyInt 1) ∧
       r !! "mean_nn" ≠ Some (PyInt 800) ∧
       r !! "mean_bpm" = Some (PyFloat (Qc_of_Z 60000)) ∧
       r !! "mean_bpm" ≠ Some (PyFloat (Qc_of_Z 75)).
Proof.
  exists (record "s.csv" 500 1 (Qc_of_Z 60000) 0 0 0 0).
  split; [by_evaluation|]. repeat split; by_evaluation.
Qed.

(** C2 (amended).  For 501 beats of type ["N"] with timestamps
    [0, 800, 1600, ...], a spacing of 800 in the unit of the [time] column,
    which the script takes to be milliseconds, the record is [n = 500],
    [mean_nn = 800], [mean_bpm = 75.0] and [0.0] for the other four metrics;
    with timestamps [0, 0.8, 1.6, ...] it is [n = 500], [mean_nn = 1],
    [mean_bpm = 60000.0] and [0.0] for the other four. *)
Theorem C2_steady_recording :
  calculate_HRV_metrics (steady_fs (Qc_of_Z 800)) "s.csv"
  = Ok (Some (record "s.csv" 500 800 (Qc_of_Z 75) 0 0 0 0)) ∧
  calculate_HRV_metrics (steady_fs (Q2Qc (8 # 10))) "s.csv"
  = Ok (Some (record "s.csv" 500 1 (Qc_of_Z 60000) 0 0 0 0)).
Proof. split; by_evaluation. Qed.

(** C3 (code defect).  The claim: the empty recording, and any recording
    without an NN pair, yields a record with [n = 0] and six null metrics.
    In the script the mean of the empty column is NaN and [int (NaN)]
    raises [ValueError] on line 113; the handler prints it and the function
    returns [None]: no error reaches the caller, but no record either. *)
Theorem C3_no_NN_pair_returns_no_record fs file bs :
  fs !! file = Some (read_csv bs) →
  nn_intervals bs = [] →
  hrv_compute (read_csv bs) = Raise ValueError ∧
  calculate_HRV_metrics fs file = Ok None.
Proof.
  intros Hf Hnn.
  rewrite (calculate_read_csv _ _ _ Hf), hrv_compute_read_csv, Hnn. done.
Qed.

Lemma C3_empty_recording :
  hrv_compute (read_csv []) = Raise ValueError ∧
  calculate_HRV_metrics {[ "s.csv" := read_csv [] ]} "s.csv" = Ok None.
Proof.
  apply (C3_no_NN_pair_returns_no_record {[ "s.csv" := read_csv [] ]} "s.csv" []);
    reflexivity.
Defined.






(** C6.  Whenever both percentages are returned non-null they are numbers
    and [pnn50 <= pnn20]. *)
Theorem C6_pnn50_le_pnn20 fs file bs r v50 v20 :
  fs !! file = Some (read_csv bs) →
  calculate_HRV_metrics fs file = Ok (Some r) →
  r !! "pnn50" = Some v50 →
  r !! "pnn20" = Some v20 →
  v50 ≠ PyNone → v20 ≠ PyNone →
  ∃ a b, v50 = PyFloat a ∧ v20 = PyFloat b ∧ (a ≤ b)%Qc.
Proof.
  intros Hf Hr H50 H20 Hn50 Hn20.
  destruct (calculate_Some _ _ _ Hf _ Hr) as (l & Hl & ->).
  apply hrv_stats_Ok in Hl as (_ & _ & Hl).
  destruct (Z.lt_ge_cases (loc_n l) 500) as [Hn|Hn].
  - pose proof (hrv_report_below file l Hn) as H.
    injection H as _ _ _ _ _ H. rewrite H in H50. by injection H50 as <-.
  - pose proof (hrv_report_above file l Hn) as H.
    injection H as _ _ _ _ H2 H5. rewrite H5 in H50. rewrite H2 in H20.
    injection H50 as <-. injection H20 as <-.
    rewrite Hl in Hn |- *. cbn [loc_n loc_pnn20 loc_pnn50] in Hn |- *.
    do 2 eexists. split; [done|]. split; [done|].
    unfold pnn_of. apply np_round_Q_mono. unfold Qcdiv.
    apply Qcmult_le_compat_r.
    + apply (proj1 (Z2Qc_inj_le _ _)).
      apply Z.mul_le_mono_nonneg_l; [lia|].
      apply count_gt_anti. by apply (proj1 (Z2Qc_inj_le _ _)).
    + apply Qclt_le_weak, Qcinv_pos. rewrite <- Z2Qc_inj_0.
      apply (proj1 (Z2Qc_inj_lt _ _)). lia.
Qed.

Lemma C6_witness_steady :
  ∃ a b, PyFloat 0 = PyFloat a ∧ PyFloat 0 = PyFloat b ∧ (a ≤ b)%Qc.
Proof.
  apply (C6_pnn50_le_pnn20 (steady_fs (Qc_of_Z 800)) "s.csv"
           (steady_beats (Qc_of_Z 800))
           (record "s.csv" 500 800 (Qc_of_Z 75) 0 0 0 0)
           (PyFloat 0) (PyFloat 0)).
  - reflexivity.
  - by_evaluation.
  - reflexivity.
  - reflexivity.
  - discriminate.
  - discriminate.
Defined.






(** C9.  The division [1000 / mean_nn] is unguarded: for every well-formed
    recording with at least one NN pair whose intervals average to a value
    in [[-1/2, 1/2]] (in particular to less than 0.5 for increasing
    timestamps) the rounded mean is 0, the division raises
    [ZeroDivisionError], the handler swallows it and the function returns
    [None] instead of a record. *)
Theorem C9_zero_mean_interval_returns_None fs file bs :
  fs !! file = Some (read_csv bs) →
  nn_intervals bs ≠ [] →
  (Q2Qc (-1 # 2) ≤ Qcmean (nn_intervals bs))%Qc →
  (Qcmean (nn_intervals bs) ≤ Q2Qc (1 # 2))%Qc →
  rint (Qcmean (nn_intervals bs)) = 0%Z ∧
  hrv_compute (read_csv bs) = Raise ZeroDivisionError ∧
  calculate_HRV_metrics fs file = Ok None.
Proof.
  intros Hf Hnn Hl Hu.
  assert (rint (Qcmean (nn_intervals bs)) = 0%Z) as Hz by by apply rint_zero.
  rewrite (calculate_read_csv _ _ _ Hf), hrv_compute_read_csv.
  unfold hrv_stats. rewrite Hz. by destruct (nn_intervals bs).
Qed.

Lemma C9_witness_two_beats :
  rint (Qcmean (nn_intervals (N_beats [0%Qc; Q2Qc (2 # 5)]))) = 0%Z ∧
  hrv_compute (read_csv (N_beats [0%Qc; Q2Qc (2 # 5)])) = Raise ZeroDivisionError ∧
  calculate_HRV_metrics {[ "s.csv" := read_csv (N_beats [0%Qc; Q2Qc (2 # 5)]) ]} "s.csv"
  = Ok None.
Proof.
  apply (C9_zero_mean_interval_returns_None
           {[ "s.csv" := read_csv (N_beats [0%Qc; Q2Qc (2 # 5)]) ]} "s.csv"
           (N_beats [0%Qc; Q2Qc (2 # 5)])).
  - reflexivity.
  - discriminate.
  - vm_compute. discriminate.
  - vm_compute. discriminate.
Defined.

(** C10.  Whenever a record is returned for a well-formed recording it has
    exactly the eight fields, [filename] is the identifier and [n] is the
    number of consecutive pairs of beats that are both of type ["N"], on
    either side of the threshold. *)
Theorem C10_record_shape fs file bs r :
  fs !! file = Some (read_csv bs) →
  Forall (λ b, beat_type b ≠ "") bs →
  calculate_HRV_metrics fs file = Ok (Some r) →
  dom r = field_names ∧
  r !! "filename" = Some (PyStr file) ∧
  r !! "n" = Some (PyInt (Z.of_nat (count_NN bs))).
Proof.
  intros Hf Hty Hr.
  destruct (calculate_Some _ _ _ Hf _ Hr) as (l & Hl & ->).
  apply hrv_stats_Ok in Hl as (_ & _ & ->).
  rewrite dom_hrv_report, hrv_report_filename, hrv_report_n. cbn [loc_n].
  by rewrite length_nn_intervals.
Qed.

Lemma C10_witness_three_beats :
  dom (null_record "s.csv" 2)
  = field_names ∧
  null_record "s.csv" 2 !! "filename"
  = Some (PyStr "s.csv") ∧
  null_record "s.csv" 2 !! "n"
  = Some (PyInt (Z.of_nat (count_NN three_beats))).
Proof.
  apply (C10_record_shape {[ "s.csv" := read_csv three_beats ]} "s.csv" three_beats).
  - reflexivity.
  - repeat constructor; discriminate.
  - by_evaluation.
Defined.
